(** * BHASHASETU: authentication session lifecycle and navigation gating

    A shallow embedding of the client-side core of the application:
    the authentication context ([AuthContext]: session store, sign-in,
    sign-out), the OAuth callback page ([AuthCallback]), the two variants
    of the root component ([App] without authentication, [AppContent]
    inside an [AuthProvider]) and the translation preview page
    ([TranslationModule]).

    Asynchronous functions are written in a small monad that threads the
    browser state and a log of the effects performed, and that carries
    JavaScript exceptions, so that [try]/[catch] is modelled as written. *)

From Stdlib Require Import String Ascii List Bool Arith Lia.
Import ListNotations.
Open Scope string_scope.

Set Implicit Arguments.

(** ** Types of the authentication SDK

    The fields of [@supabase/supabase-js]'s [User], [Session] and
    [AuthError] that the application reads.  A [Session] always carries
    its [User]. *)
Module Supabase.

Record UserMetadata := {
  avatar_url : option string;
  full_name  : option string;
  provider   : option string
}.

Record User := {
  id            : string;
  email         : option string;
  user_metadata : UserMetadata
}.

Record Session := {
  access_token : string;
  user         : User
}.

Record AuthError := { message : string }.

Inductive AuthChangeEvent :=
| INITIAL_SESSION
| SIGNED_IN
| SIGNED_OUT
| TOKEN_REFRESHED
| USER_UPDATED
| PASSWORD_RECOVERY.

(** The value [getSession()] resolves to: [{ data: { session }, error }]. *)
Record GetSessionResponse := {
  data_session : option Session;
  gs_error     : option AuthError
}.

(** The value [signInWithOAuth()] and [signOut()] resolve to; only
    [error] is read. *)
Record ErrorResponse := { error : option AuthError }.

End Supabase.

(** ** JavaScript values that are thrown, and how a call completes *)

Inductive Thrown :=
| JsError (msg : string)                     (* [new Error(msg)] *)
| JsAuthError (e : Supabase.AuthError)       (* [throw error] of a response *)
| JsRejection (reason : string).             (* a rejected backend promise *)

Inductive Completion (A : Type) :=
| Normal (a : A)
| Throws (t : Thrown).

Arguments Normal {A} a.
Arguments Throws {A} t.

(** A promise of the backend either resolves to a value or rejects. *)
Inductive Outcome (A : Type) :=
| Resolved (a : A)
| Rejected (t : Thrown).

Arguments Resolved {A} a.
Arguments Rejected {A} t.

(** ** The browser, the session store and the effect monad *)
Module Browser.

(** The three pieces of state of [AuthProvider]. *)
Record AuthState := {
  user    : option Supabase.User;
  session : option Supabase.Session;
  loading : bool
}.

(** What a run performs, in order. *)
Inductive Op :=
| ConsoleLog (msg : string)
| ConsoleError (msg : string)
| Alert (msg : string)
| AwaitTimeout (ms : nat)                             (* an awaited [setTimeout] *)
| GetSession                                        (* [supabase.auth.getSession()] *)
| SignInWithOAuth (provider redirectTo : string)    (* [supabase.auth.signInWithOAuth] *)
| SignOut                                           (* [supabase.auth.signOut()] *)
| SetSession (s : option Supabase.Session)
| SetUser (u : option Supabase.User)
| SetLoading (b : bool)
| SetHref (url : string).                           (* [window.location.href = url] *)

Record World := {
  auth    : AuthState;
  href    : string;          (* last value assigned to [window.location.href] *)
  effects : list Op          (* oldest first *)
}.

(** How the backend answers each of the three calls, and the page's
    origin. *)
Record Env := {
  origin              : string;
  getSession_result   : Outcome Supabase.GetSessionResponse;
  signInOAuth_result  : Outcome Supabase.ErrorResponse;
  signOut_result      : Outcome Supabase.ErrorResponse
}.

(** The same environment with another answer to one of the calls. *)
Definition with_getSession (o : Outcome Supabase.GetSessionResponse)
    (env : Env) : Env :=
  {| origin := origin env;
     getSession_result := o;
     signInOAuth_result := signInOAuth_result env;
     signOut_result := signOut_result env |}.

Definition with_signInOAuth (o : Outcome Supabase.ErrorResponse)
    (env : Env) : Env :=
  {| origin := origin env;
     getSession_result := getSession_result env;
     signInOAuth_result := o;
     signOut_result := signOut_result env |}.

Definition with_signOut (o : Outcome Supabase.ErrorResponse)
    (env : Env) : Env :=
  {| origin := origin env;
     getSession_result := getSession_result env;
     signInOAuth_result := signInOAuth_result env;
     signOut_result := o |}.

(** A call failed: its promise rejected, or resolved with an [error]. *)
Definition failed (o : Outcome Supabase.ErrorResponse) : bool :=
  match o with
  | Resolved r =>
      match Supabase.error r with Some _ => true | None => false end
  | Rejected _ => true
  end.

Definition M (A : Type) : Type := Env -> World -> World * Completion A.

Definition ret {A} (a : A) : M A := fun _ w => (w, Normal a).

Definition bind {A B} (m : M A) (k : A -> M B) : M B :=
  fun env w =>
    match m env w with
    | (w', Normal a) => k a env w'
    | (w', Throws t) => (w', Throws t)
    end.

Definition throw {A} (t : Thrown) : M A := fun _ w => (w, Throws t).

(** [try { body } catch (error) { handler error }] *)
Definition try_catch {A} (body : M A) (handler : Thrown -> M A) : M A :=
  fun env w =>
    match body env w with
    | (w', Normal a) => (w', Normal a)
    | (w', Throws t) => handler t env w'
    end.

Definition emit (o : Op) (w : World) : World :=
  {| auth := auth w; href := href w; effects := effects w ++ [o] |}.

Definition perform (o : Op) : M unit := fun _ w => (emit o w, Normal tt).

(** [await p]: the value of a resolved promise, or its rejection thrown. *)
Definition await {A} (o : Op) (result : Env -> Outcome A) : M A :=
  fun env w =>
    match result env with
    | Resolved a => (emit o w, Normal a)
    | Rejected t => (emit o w, Throws t)
    end.

Definition read_origin : M string := fun env w => (w, Normal (origin env)).

Definition console_log (msg : string) : M unit := perform (ConsoleLog msg).
Definition console_error (msg : string) : M unit := perform (ConsoleError msg).
Definition alert (msg : string) : M unit := perform (Alert msg).
Definition sleep (ms : nat) : M unit := perform (AwaitTimeout ms).

Definition setSession (s : option Supabase.Session) : M unit :=
  fun _ w =>
    (emit (SetSession s)
       {| auth := {| user := user (auth w); session := s;
                     loading := loading (auth w) |};
          href := href w; effects := effects w |}, Normal tt).

Definition setUser (u : option Supabase.User) : M unit :=
  fun _ w =>
    (emit (SetUser u)
       {| auth := {| user := u; session := session (auth w);
                     loading := loading (auth w) |};
          href := href w; effects := effects w |}, Normal tt).

Definition setLoading (b : bool) : M unit :=
  fun _ w =>
    (emit (SetLoading b)
       {| auth := {| user := user (auth w); session := session (auth w);
                     loading := b |};
          href := href w; effects := effects w |}, Normal tt).

(** [window.location.href = url].  In a browser the assignment does not
    throw (and the script goes on until the page unloads). *)
Definition set_href (url : string) : M unit :=
  fun _ w =>
    (emit (SetHref url)
       {| auth := auth w; href := url; effects := effects w |}, Normal tt).

Definition supabase_auth_getSession : M Supabase.GetSessionResponse :=
  await GetSession getSession_result.

Definition supabase_auth_signInWithOAuth (provider redirectTo : string)
  : M Supabase.ErrorResponse :=
  await (SignInWithOAuth provider redirectTo) signInOAuth_result.

Definition supabase_auth_signOut : M Supabase.ErrorResponse :=
  await SignOut signOut_result.

End Browser.

Import Browser.

Declare Scope js_scope.
Delimit Scope js_scope with js.
Notation "x <- m ;; k" := (bind m (fun x => k))
  (at level 61, m at next level, right associativity) : js_scope.
Notation "m ;; k" := (bind m (fun _ => k))
  (at level 61, right associativity) : js_scope.
Open Scope js_scope.

(** ** contexts/AuthContext *)

(** [interface AuthContextType] *)
Module AuthContextType.
Record t := {
  user             : option Supabase.User;
  session          : option Supabase.Session;
  loading          : bool;
  signInWithGoogle : M unit;
  signOut          : M unit
}.
End AuthContextType.

Module Contexts_AuthContext.

(** The path from a component up to the root of the React tree, nearest
    ancestor first. *)
Inductive Ancestor :=
| AuthContext_Provider (value : AuthContextType.t)
| OtherElement (name : string).

(** [useContext(AuthContext)]: the value of the nearest provider, or the
    default of [createContext<AuthContextType | undefined>(undefined)]. *)
Fixpoint useContext_AuthContext (ancestors : list Ancestor)
  : option AuthContextType.t :=
  match ancestors with
  | [] => None
  | AuthContext_Provider value :: _ => Some value
  | OtherElement _ :: rest => useContext_AuthContext rest
  end.

Definition useAuth (ancestors : list Ancestor)
  : Completion AuthContextType.t :=
  let context := useContext_AuthContext ancestors in
  match context with
  | None => Throws (JsError "useAuth must be used within an AuthProvider")
  | Some context => Normal context
  end.

(** [useState<User | null>(null)], [useState<Session | null>(null)],
    [useState(true)] *)
Definition initial_state : AuthState :=
  {| user := None; session := None; loading := true |}.

(** [session?.user ?? null] *)
Definition session_user (session : option Supabase.Session)
  : option Supabase.User :=
  match session with
  | Some s => Some (Supabase.user s)
  | None => None
  end.

Definition getInitialSession : M unit :=
  r <- supabase_auth_getSession ;;
  let session := Supabase.data_session r in
  setSession session ;;
  setUser (session_user session) ;;
  setLoading false.

(** The callback passed to [supabase.auth.onAuthStateChange]. *)
Definition onAuthStateChange_callback
    (event : Supabase.AuthChangeEvent) (session : option Supabase.Session)
  : M unit :=
  console_log "Auth state changed:" ;;
  setSession session ;;
  setUser (session_user session) ;;
  setLoading false.

Definition signInWithGoogle : M unit :=
  try_catch
    (setLoading true ;;
     o <- read_origin ;;
     r <- supabase_auth_signInWithOAuth "google" (o ++ "/auth/callback") ;;
     match Supabase.error r with
     | Some error => throw (JsAuthError error)
     | None => ret tt
     end)
    (fun error =>
       console_error "Error signing in with Google:" ;;
       alert "Failed to sign in with Google. Please try again." ;;
       setLoading false).

Definition signOut : M unit :=
  try_catch
    (r <- supabase_auth_signOut ;;
     match Supabase.error r with
     | Some error => throw (JsAuthError error)
     | None => ret tt
     end)
    (fun error =>
       console_error "Error signing out:" ;;
       alert "Failed to sign out. Please try again.") ;;
  try_catch
    (set_href "/")
    (fun _ => ret tt).

(** [const value = { user, session, loading, signInWithGoogle, signOut }] *)
Definition value (st : AuthState) : AuthContextType.t :=
  {| AuthContextType.user := user st;
     AuthContextType.session := session st;
     AuthContextType.loading := loading st;
     AuthContextType.signInWithGoogle := signInWithGoogle;
     AuthContextType.signOut := signOut |}.

(** [<AuthContext.Provider value={value}>{children}</AuthContext.Provider>]:
    what the children of an [AuthProvider] in state [st] have above them. *)
Definition AuthProvider (st : AuthState) (ancestors : list Ancestor)
  : list Ancestor :=
  AuthContext_Provider (value st) :: ancestors.

(** The two ways the mount effect writes the store: the resolution of
    the initial [getSession()] and a notification of the subscription. *)
Inductive StoreUpdate :=
| InitialFetchResolved (r : Supabase.GetSessionResponse)
| AuthStateChanged (event : Supabase.AuthChangeEvent)
                   (session : option Supabase.Session).

Definition apply_update (env : Env) (w : World) (u : StoreUpdate) : World :=
  match u with
  | InitialFetchResolved r =>
      fst (getInitialSession (with_getSession (Resolved r) env) w)
  | AuthStateChanged event session =>
      fst (onAuthStateChange_callback event session env w)
  end.

Definition apply_updates (env : Env) (us : list StoreUpdate) (w : World)
  : World :=
  fold_left (apply_update env) us w.

(** The sessions the store holds as current. *)
Definition current_sessions (st : AuthState) : list Supabase.Session :=
  match session st with
  | Some s => [s]
  | None => []
  end.

End Contexts_AuthContext.

(** ** pages/AuthCallback *)
Module Pages_AuthCallback.
Import Contexts_AuthContext.

(** [user] is the value the component read from the context in the
    render whose effect runs the handler. *)
Definition handleAuthCallback (user : option Supabase.User) : M unit :=
  try_catch
    (sleep 1000 ;;
     match user with
     | Some _ =>
         console_log "Authentication successful:" ;;
         set_href "/"
     | None =>
         r <- supabase_auth_getSession ;;
         match Supabase.gs_error r with
         | Some _ =>
             console_error "Error handling auth callback:" ;;
             set_href "/?error=auth_failed"
         | None =>
             match Supabase.data_session r with
             | Some _ =>
                 console_log "Authentication successful:" ;;
                 set_href "/"
             | None =>
                 set_href "/"
             end
         end
     end)
    (fun error =>
       console_error "Unexpected error during auth callback:" ;;
       set_href "/?error=unexpected_error").

(** The effect of [useEffect(..., [user])] for a render under
    [ancestors]. *)
Definition AuthCallback_effect (ancestors : list Ancestor)
  : Completion (M unit) :=
  match useAuth ancestors with
  | Normal context => Normal (handleAuthCallback (AuthContextType.user context))
  | Throws t => Throws t
  end.

End Pages_AuthCallback.

(** ** Screens and navigation, shared by the two variants of [App] *)

(** [type Page = 'landing' | 'learner' | 'admin' | 'translation' | 'voice'] *)
Inductive Page := landing | learner | admin | translation | voice.

(** The string a [Page] is at run time. *)
Definition Page_tag (p : Page) : string :=
  match p with
  | landing => "landing"
  | learner => "learner"
  | admin => "admin"
  | translation => "translation"
  | voice => "voice"
  end.

(** The page components a root component can mount. *)
Inductive Element :=
| LandingPage
| LearnerModule
| AdminDashboard
| TranslationModule
| VoiceModule
| AuthCallback.

(** [useState<Page>('landing')] and its setter: the new value replaces the
    old one. *)
Definition initial_currentPage : Page := landing.

Definition setCurrentPage (next : Page) (currentPage : Page) : Page := next.

(** The [switch (currentPage)] of [renderPage], which both variants of
    [App] contain verbatim; every presenter receives
    [onNavigate={setCurrentPage}]. *)
Definition renderPage (currentPage : Page) : Element :=
  let tag := Page_tag currentPage in
  if tag =? "landing" then LandingPage
  else if tag =? "learner" then LearnerModule
  else if tag =? "admin" then AdminDashboard
  else if tag =? "translation" then TranslationModule
  else if tag =? "voice" then VoiceModule
  else LandingPage.

(** A pending [setTimeout(() => setCurrentPage(page), ms)]. *)
Record Timer := { ms : nat; page : Page }.

Definition fire (t : Timer) (currentPage : Page) : Page :=
  setCurrentPage (page t) currentPage.

(** The state once the timers a render has scheduled have fired, in the
    order they were scheduled. *)
Definition next_tick (scheduled : list Timer) (currentPage : Page) : Page :=
  fold_left (fun cur t => fire t cur) scheduled currentPage.

(** What a render of a root component produces: the element it returns and
    the timers it has started. *)
Record Rendered := { element : Element; scheduled : list Timer }.

(** ** App, the variant without authentication *)
Module App_plain.

Definition App (currentPage : Page) : Rendered :=
  {| element := renderPage currentPage; scheduled := [] |}.

End App_plain.

(** ** App, the variant with authentication *)
Module App_auth.
Import Contexts_AuthContext.

Definition truthy {A} (o : option A) : bool :=
  match o with Some _ => true | None => false end.

(** [pathname] is [window.location.pathname]. *)
Definition AppContent (pathname : string) (ancestors : list Ancestor)
    (currentPage : Page) : Completion Rendered :=
  match useAuth ancestors with
  | Throws t => Throws t
  | Normal context =>
      let user := AuthContextType.user context in
      if pathname =? "/auth/callback" then
        Normal {| element := AuthCallback; scheduled := [] |}
      else
        let timers :=
          if truthy user && (Page_tag currentPage =? "landing")
          then [ {| ms := 0; page := learner |} ]
          else [] in
        Normal {| element := renderPage currentPage; scheduled := timers |}
  end.

(** [<AuthProvider><AppContent /></AuthProvider>], with the provider in
    state [st]. *)
Definition App (pathname : string) (st : AuthState) (currentPage : Page)
  : Completion Rendered :=
  AppContent pathname (AuthProvider st []) currentPage.

End App_auth.

(** ** pages/TranslationModule *)
Module Pages_TranslationModule.

Record GlossaryTerm := { term : string; translation_ : string }.

(** The component's [useState] cells. *)
Record State := {
  sourceLanguage     : string;
  targetLanguage     : string;
  regionalAdaptation : bool;
  glossaryTerms      : list GlossaryTerm;
  isTranslating      : bool
}.

Definition initial_state : State :=
  {| sourceLanguage := "English";
     targetLanguage := "Hindi";
     regionalAdaptation := true;
     glossaryTerms :=
       [ {| term := "Welding"; translation_ := "वेल्डिंग" |};
         {| term := "Arc"; translation_ := "चाप" |} ];
     isTranslating := false |}.

Definition sourceText : string := "Introduction to Welding Safety

Safety is the most critical aspect of welding operations. All welders must wear appropriate personal protective equipment (PPE) including welding helmets, gloves, and protective clothing. The welding area should be well-ventilated to prevent exposure to harmful fumes.

Key Safety Equipment:
• Welding helmet with proper shade lens
• Leather welding gloves
• Fire-resistant clothing
• Safety boots with steel toes".

Definition translatedText : string := "वेल्डिंग सुरक्षा का परिचय

वेल्डिंग संचालन में सुरक्षा सबसे महत्वपूर्ण पहलू है। सभी वेल्डरों को उचित व्यक्तिगत सुरक्षा उपकरण (पीपीई) पहनना चाहिए जिसमें वेल्डिंग हेलमेट, दस्ताने और सुरक्षात्मक कपड़े शामिल हैं। हानिकारक धुएं के संपर्क को रोकने के लिए वेल्डिंग क्षेत्र में अच्छा वेंटिलेशन होना चाहिए।

मुख्य सुरक्षा उपकरण:
• उचित शेड लेंस वाला वेल्डिंग हेलमेट
• चमड़े के वेल्डिंग दस्ताने
• आग प्रतिरोधी कपड़े
• स्टील के पंजों वाले सुरक्षा जूते".

Definition setIsTranslating (b : bool) (st : State) : State :=
  {| sourceLanguage := sourceLanguage st;
     targetLanguage := targetLanguage st;
     regionalAdaptation := regionalAdaptation st;
     glossaryTerms := glossaryTerms st;
     isTranslating := b |}.

(** A pending [setTimeout(() => setIsTranslating(value), delay)]. *)
Record Pending := { delay : nat; value : bool }.

Definition handleTranslate (st : State) : State * list Pending :=
  (setIsTranslating true st, [ {| delay := 2000; value := false |} ]).

Definition elapse (p : Pending) (st : State) : State :=
  setIsTranslating (value p) st.

(** The parts of the rendered page that depend on the state or show one
    of the two texts. *)
Record View := {
  source_heading      : string;    (* [Source ({sourceLanguage})] *)
  source_pane         : string;    (* [<pre>{sourceText}</pre>] *)
  target_heading      : string;    (* [Target ({targetLanguage})] *)
  target_pane         : string;    (* [<pre>{translatedText}</pre>] *)
  translate_disabled  : bool;      (* [disabled={isTranslating}] *)
  translate_label     : string
}.

Definition render (st : State) : View :=
  {| source_heading := "Source (" ++ sourceLanguage st ++ ")";
     source_pane := sourceText;
     target_heading := "Target (" ++ targetLanguage st ++ ")";
     target_pane := translatedText;
     translate_disabled := isTranslating st;
     translate_label :=
       if isTranslating st then "Translating..." else "Translate" |}.

(** The texts a view displays in its two preview panes. *)
Definition panes : list (View -> string) := [source_pane; target_pane].

(** What the specification says of the translate operation: some pane
    shows one of the two hardcoded strings while the delay runs and the
    other one once it has elapsed. *)
Definition swaps_displayed_text (during after : View) : Prop :=
  exists pane, In pane panes /\
    ((pane during = sourceText /\ pane after = translatedText) \/
     (pane during = translatedText /\ pane after = sourceText)).

End Pages_TranslationModule.

(** The presenter the specification associates with each screen. *)
Definition presenter_of (p : Page) : Element :=
  match p with
  | landing => LandingPage
  | learner => LearnerModule
  | admin => AdminDashboard
  | translation => TranslationModule
  | voice => VoiceModule
  end.

(** ** Reading a log *)

(** The number of [getSession()] calls in a log. *)
Definition getSession_calls (ops : list Op) : nat :=
  length (filter (fun o => match o with GetSession => true | _ => false end) ops).

(** The alerts of a log, in order. *)
Definition alerts (ops : list Op) : list string :=
  flat_map (fun o => match o with Alert msg => [msg] | _ => [] end) ops.

(** ** Sample values *)
Module Samples.

Definition asha : Supabase.User :=
  {| Supabase.id := "u-1";
     Supabase.email := Some "asha@example.org";
     Supabase.user_metadata :=
       {| Supabase.avatar_url := None;
          Supabase.full_name := Some "Asha";
          Supabase.provider := Some "google" |} |}.

Definition asha_session : Supabase.Session :=
  {| Supabase.access_token := "token-1"; Supabase.user := asha |}.

Definition signed_in : AuthState :=
  {| user := Some asha; session := Some asha_session; loading := false |}.

Definition signed_out : AuthState :=
  {| user := None; session := None; loading := false |}.

End Samples.

(** ** Everything that writes the session store

    The store is written by the mount effect (the initial fetch, which
    may also reject, and the subscription's notifications) and by the two
    methods of the context, which a component may call at any time. *)
Module SessionTraces.
Import Contexts_AuthContext.

Inductive Action :=
| StoreUpdated (u : StoreUpdate)
| InitialFetchRejected (t : Thrown)
| SignInCalled (answer : Outcome Supabase.ErrorResponse)
| SignOutCalled (answer : Outcome Supabase.ErrorResponse).

Definition step (env : Env) (w : World) (a : Action) : World :=
  match a with
  | StoreUpdated u => apply_update env w u
  | InitialFetchRejected t =>
      fst (getInitialSession (with_getSession (Rejected t) env) w)
  | SignInCalled answer =>
      fst (signInWithGoogle (with_signInOAuth answer env) w)
  | SignOutCalled answer =>
      fst (signOut (with_signOut answer env) w)
  end.

Definition run (env : Env) (actions : list Action) (w : World) : World :=
  fold_left (step env) actions w.


(** The world in which [AuthProvider] mounts. *)
Definition mounted (location : string) : World :=
  {| auth := initial_state; href := location; effects := [] |}.

End SessionTraces.

(** ** components/GoogleLogin *)
Module Components_GoogleLogin.
Import Contexts_AuthContext.

(** [s.split('@')[0]]: the part of [s] before its first ['@'], all of [s]
    when it has none. *)
Fixpoint before_at (s : string) : string :=
  match s with
  | EmptyString => EmptyString
  | String c rest =>
      if Ascii.eqb c "@"%char then EmptyString else String c (before_at rest)
  end.

Fixpoint has_at (s : string) : bool :=
  match s with
  | EmptyString => false
  | String c rest => Ascii.eqb c "@"%char || has_at rest
  end.

(** A string that is present and not empty is truthy. *)
Definition truthy_string (o : option string) : bool :=
  match o with
  | Some (String _ _) => true
  | Some EmptyString => false
  | None => false
  end.

(** [user.user_metadata?.full_name || user.email?.split('@')[0]] *)
Definition display_name (user : Supabase.User) : option string :=
  let full_name := Supabase.full_name (Supabase.user_metadata user) in
  if truthy_string full_name then full_name
  else match Supabase.email user with
       | Some email => Some (before_at email)
       | None => None
       end.

Inductive Avatar :=
| ProfileImage (src : string)     (* [<img src={avatar_url} />] *)
| UserIcon.                       (* [<User />] *)

(** [user.user_metadata?.avatar_url ? <img ... /> : <User ... />] *)
Definition avatar (user : Supabase.User) : Avatar :=
  let avatar_url := Supabase.avatar_url (Supabase.user_metadata user) in
  match avatar_url with
  | Some (String c rest) => ProfileImage (String c rest)
  | _ => UserIcon
  end.

(** [user.user_metadata?.provider === 'google' ? 'Google Account' : 'User'] *)
Definition account_label (user : Supabase.User) : string :=
  match Supabase.provider (Supabase.user_metadata user) with
  | Some p => if p =? "google" then "Google Account" else "User"
  | None => "User"
  end.

(** What the component returns; a button carries its [onClick]. *)
Inductive View :=
| LoadingSpinner
| UserInfo (picture : Avatar) (name : option string) (account : string)
           (logout_onClick : M unit)
| SignInButton (onClick : M unit).

Definition GoogleLogin (ancestors : list Ancestor) : Completion View :=
  match useAuth ancestors with
  | Throws t => Throws t
  | Normal context =>
      let user := AuthContextType.user context in
      let signInWithGoogle := AuthContextType.signInWithGoogle context in
      let signOut := AuthContextType.signOut context in
      let loading := AuthContextType.loading context in
      if loading then Normal LoadingSpinner
      else match user with
           | Some user =>
               Normal (UserInfo (avatar user) (display_name user)
                                (account_label user) signOut)
           | None => Normal (SignInButton signInWithGoogle)
           end
  end.

End Components_GoogleLogin.

(** ** pages/LearnerModule: the authentication controls of the navigation
    bar and the lesson heading *)
Module Pages_LearnerModule.
Import Contexts_AuthContext.

Record State := {
  isDualLanguage   : bool;
  selectedLanguage : string;
  currentLesson    : nat
}.

Definition initial_state : State :=
  {| isDualLanguage := true; selectedLanguage := "Hindi"; currentLesson := 0 |}.

Inductive AuthControls :=
| Spinner
| SignedIn (picture : Components_GoogleLogin.Avatar) (name : option string)
           (account : string) (logout_onClick : M unit)
| Guest (text : string).

Record View := {
  auth_controls : AuthControls;
  heading       : string;
  home_onClick  : Page            (* [onNavigate('landing')] *)
}.

Definition english_title : string := "Types of Welding Joints".

Definition LearnerModule (ancestors : list Ancestor) (st : State)
  : Completion View :=
  match useAuth ancestors with
  | Throws t => Throws t
  | Normal context =>
      let user := AuthContextType.user context in
      let loading := AuthContextType.loading context in
      let signOut := AuthContextType.signOut context in
      Normal
        {| auth_controls :=
             if loading then Spinner
             else match user with
                  | Some user =>
                      SignedIn (Components_GoogleLogin.avatar user)
                               (Components_GoogleLogin.display_name user)
                               "Google Account" signOut
                  | None => Guest "Welcome, Guest"
                  end;
           heading :=
             if isDualLanguage st then "Lesson 3: Dual-Language View"
             else english_title;
           home_onClick := landing |}
  end.

End Pages_LearnerModule.

(** ** pages/LandingPage: the sign-in controls it mounts *)
Module Pages_LandingPage.
Import Contexts_AuthContext.

(** The [<GoogleLogin />] elements of the page in document order: the one
    of the navigation bar, the one of the mobile menu when
    [mobileMenuOpen], the one of the hero section.  A child that throws
    while rendering makes the render of the page throw. *)
Definition render_all (children : list (Completion Components_GoogleLogin.View))
  : Completion (list Components_GoogleLogin.View) :=
  fold_right
    (fun child rest =>
       match child with
       | Throws t => Throws t
       | Normal v =>
           match rest with
           | Throws t => Throws t
           | Normal vs => Normal (v :: vs)
           end
       end)
    (Normal []) children.

Definition LandingPage (ancestors : list Ancestor) (mobileMenuOpen : bool)
  : Completion (list Components_GoogleLogin.View) :=
  let inside := OtherElement "LandingPage" :: ancestors in
  let login := Components_GoogleLogin.GoogleLogin inside in
  render_all
    ([login] ++ (if mobileMenuOpen then [login] else []) ++ [login]).

End Pages_LandingPage.

(** ** pages/TranslationModule: the technical glossary

    [glossaryTerms] is an array of objects.  The handlers of the two text
    inputs copy the array with [[...glossaryTerms]] and then assign to a
    field of one of its elements, which is the very object the previous
    array holds; so objects live in a store and an array holds
    references to them. *)
Module Glossary.

Definition Ref := nat.

Record State := {
  objects       : list Pages_TranslationModule.GlossaryTerm;
  glossaryTerms : list Ref
}.

(** The value the [useState] cell starts with. *)
Definition initial_state : State :=
  {| objects :=
       Pages_TranslationModule.glossaryTerms
         Pages_TranslationModule.initial_state;
     glossaryTerms := [0; 1] |}.

Definition setGlossaryTerms (terms : list Ref) (st : State) : State :=
  {| objects := objects st; glossaryTerms := terms |}.

(** Evaluating an object literal allocates an object. *)
Definition allocate (o : Pages_TranslationModule.GlossaryTerm) (st : State)
  : State * Ref :=
  ({| objects := objects st ++ [o]; glossaryTerms := glossaryTerms st |},
   length (objects st)).

(** [setGlossaryTerms([...glossaryTerms, { term: '', translation: '' }])] *)
Definition addGlossaryTerm (st : State) : State :=
  let (st', fresh) :=
    allocate {| Pages_TranslationModule.term := "";
                Pages_TranslationModule.translation_ := "" |} st in
  setGlossaryTerms (glossaryTerms st' ++ [fresh]) st'.

(** [array.filter((x, i) => keep(x, i))], the elements counted from [i]. *)
Fixpoint filter_from {A} (i : nat) (keep : A -> nat -> bool) (l : list A)
  : list A :=
  match l with
  | [] => []
  | x :: rest =>
      if keep x i then x :: filter_from (S i) keep rest
      else filter_from (S i) keep rest
  end.

(** [setGlossaryTerms(glossaryTerms.filter((_, i) => i !== index))] *)
Definition removeGlossaryTerm (index : nat) (st : State) : State :=
  setGlossaryTerms
    (filter_from 0 (fun _ i => negb (Nat.eqb i index)) (glossaryTerms st)) st.

(** Assigning through a reference: the object at [r] becomes [f] of it. *)
Fixpoint assign (r : Ref)
    (f : Pages_TranslationModule.GlossaryTerm
         -> Pages_TranslationModule.GlossaryTerm)
    (objs : list Pages_TranslationModule.GlossaryTerm)
  : list Pages_TranslationModule.GlossaryTerm :=
  match objs, r with
  | [], _ => []
  | o :: rest, 0 => f o :: rest
  | o :: rest, S r' => o :: assign r' f rest
  end.

(** What assigning to a property of [undefined] throws. *)
Definition TypeError_undefined : Thrown :=
  JsError "TypeError: Cannot set properties of undefined".

Definition set_term (value : string) (o : Pages_TranslationModule.GlossaryTerm)
  : Pages_TranslationModule.GlossaryTerm :=
  {| Pages_TranslationModule.term := value;
     Pages_TranslationModule.translation_ :=
       Pages_TranslationModule.translation_ o |}.

Definition set_translation (value : string)
    (o : Pages_TranslationModule.GlossaryTerm)
  : Pages_TranslationModule.GlossaryTerm :=
  {| Pages_TranslationModule.term := Pages_TranslationModule.term o;
     Pages_TranslationModule.translation_ := value |}.

(** The body shared by the two [onChange] handlers:
    [const newTerms = [...glossaryTerms]; newTerms[index].field = value;
     setGlossaryTerms(newTerms)]. *)
Definition onChange
    (set : string -> Pages_TranslationModule.GlossaryTerm
           -> Pages_TranslationModule.GlossaryTerm)
    (index : nat) (value : string) (st : State) : Completion State :=
  let newTerms := glossaryTerms st in
  match nth_error newTerms index with
  | None => Throws TypeError_undefined
  | Some r =>
      Normal (setGlossaryTerms newTerms
                {| objects := assign r (set value) (objects st);
                   glossaryTerms := glossaryTerms st |})
  end.

Definition onChange_term := onChange set_term.
Definition onChange_translation := onChange set_translation.

(** What [glossaryTerms.map((term, index) => ...)] reads through an array:
    for each reference the object it points to. *)
Definition read (objs : list Pages_TranslationModule.GlossaryTerm)
    (terms : list Ref) : list (option Pages_TranslationModule.GlossaryTerm) :=
  map (nth_error objs) terms.

Definition rendered (st : State)
  : list (option Pages_TranslationModule.GlossaryTerm) :=
  read (objects st) (glossaryTerms st).

(** What the user does to the glossary. *)
Inductive Event :=
| ClickAdd
| ClickRemove (index : nat)
| TypeTerm (index : nat) (value : string)
| TypeTranslation (index : nat) (value : string).

(** A handler that throws has not called [setGlossaryTerms]. *)
Definition settled (c : Completion State) (st : State) : State :=
  match c with
  | Normal st' => st'
  | Throws _ => st
  end.

Definition handle (st : State) (e : Event) : State :=
  match e with
  | ClickAdd => addGlossaryTerm st
  | ClickRemove index => removeGlossaryTerm index st
  | TypeTerm index value => settled (onChange_term index value st) st
  | TypeTranslation index value =>
      settled (onChange_translation index value st) st
  end.

(** The array holds distinct references, each to an existing object. *)
Definition well_formed (st : State) : Prop :=
  NoDup (glossaryTerms st)
  /\ Forall (fun r => r < length (objects st)) (glossaryTerms st).

End Glossary.

(** ** pages/TranslationModule: the page in use

    The cells the user can set, the translate button, which the browser
    does not let the user click while it is [disabled], and the timers
    the page has started, which fire in the order they were started since
    all have the same delay. *)
Module TranslationUI.
Import Pages_TranslationModule.

Definition setSourceLanguage (v : string) (st : State) : State :=
  {| sourceLanguage := v;
     targetLanguage := targetLanguage st;
     regionalAdaptation := regionalAdaptation st;
     glossaryTerms := glossaryTerms st;
     isTranslating := isTranslating st |}.

Definition setTargetLanguage (v : string) (st : State) : State :=
  {| sourceLanguage := sourceLanguage st;
     targetLanguage := v;
     regionalAdaptation := regionalAdaptation st;
     glossaryTerms := glossaryTerms st;
     isTranslating := isTranslating st |}.

Definition setRegionalAdaptation (b : bool) (st : State) : State :=
  {| sourceLanguage := sourceLanguage st;
     targetLanguage := targetLanguage st;
     regionalAdaptation := b;
     glossaryTerms := glossaryTerms st;
     isTranslating := isTranslating st |}.

Record UI := { state : State; pending : list Pending }.

Inductive Event :=
| ClickTranslate
| TimerFires
| SelectSource (v : string)
| SelectTarget (v : string)
| ClickRegionalAdaptation.

Definition handle (ui : UI) (e : Event) : UI :=
  match e with
  | ClickTranslate =>
      if translate_disabled (render (state ui)) then ui
      else {| state := fst (handleTranslate (state ui));
              pending := pending ui ++ snd (handleTranslate (state ui)) |}
  | TimerFires =>
      match pending ui with
      | [] => ui
      | p :: rest => {| state := elapse p (state ui); pending := rest |}
      end
  | SelectSource v =>
      {| state := setSourceLanguage v (state ui); pending := pending ui |}
  | SelectTarget v =>
      {| state := setTargetLanguage v (state ui); pending := pending ui |}
  | ClickRegionalAdaptation =>
      {| state := setRegionalAdaptation
                    (negb (regionalAdaptation (state ui))) (state ui);
         pending := pending ui |}
  end.

Definition mounted : UI := {| state := initial_state; pending := [] |}.

End TranslationUI.

(** ** pages/VoiceModule *)
Module Pages_VoiceModule.

Record State := {
  isPlaying             : bool;
  selectedVoiceLanguage : string;
  subtitleLanguage      : string;
  isDualSubtitles       : bool;
  isProcessing          : bool;
  highContrast          : bool
}.

Definition initial_state : State :=
  {| isPlaying := false;
     selectedVoiceLanguage := "Hindi";
     subtitleLanguage := "Hindi";
     isDualSubtitles := true;
     isProcessing := false;
     highContrast := false |}.

Definition setIsPlaying (b : bool) (st : State) : State :=
  {| isPlaying := b;
     selectedVoiceLanguage := selectedVoiceLanguage st;
     subtitleLanguage := subtitleLanguage st;
     isDualSubtitles := isDualSubtitles st;
     isProcessing := isProcessing st;
     highContrast := highContrast st |}.

Definition setSelectedVoiceLanguage (v : string) (st : State) : State :=
  {| isPlaying := isPlaying st;
     selectedVoiceLanguage := v;
     subtitleLanguage := subtitleLanguage st;
     isDualSubtitles := isDualSubtitles st;
     isProcessing := isProcessing st;
     highContrast := highContrast st |}.

Definition setSubtitleLanguage (v : string) (st : State) : State :=
  {| isPlaying := isPlaying st;
     selectedVoiceLanguage := selectedVoiceLanguage st;
     subtitleLanguage := v;
     isDualSubtitles := isDualSubtitles st;
     isProcessing := isProcessing st;
     highContrast := highContrast st |}.

Definition setIsDualSubtitles (b : bool) (st : State) : State :=
  {| isPlaying := isPlaying st;
     selectedVoiceLanguage := selectedVoiceLanguage st;
     subtitleLanguage := subtitleLanguage st;
     isDualSubtitles := b;
     isProcessing := isProcessing st;
     highContrast := highContrast st |}.

Definition setIsProcessing (b : bool) (st : State) : State :=
  {| isPlaying := isPlaying st;
     selectedVoiceLanguage := selectedVoiceLanguage st;
     subtitleLanguage := subtitleLanguage st;
     isDualSubtitles := isDualSubtitles st;
     isProcessing := b;
     highContrast := highContrast st |}.

Definition setHighContrast (b : bool) (st : State) : State :=
  {| isPlaying := isPlaying st;
     selectedVoiceLanguage := selectedVoiceLanguage st;
     subtitleLanguage := subtitleLanguage st;
     isDualSubtitles := isDualSubtitles st;
     isProcessing := isProcessing st;
     highContrast := b |}.

(** A pending [setTimeout(() => setIsProcessing(value), delay)]. *)
Record Pending := { delay : nat; value : bool }.

Definition handleGenerateAudio (st : State) : State * list Pending :=
  (setIsProcessing true st, [ {| delay := 3000; value := false |} ]).

Definition elapse (p : Pending) (st : State) : State :=
  setIsProcessing (value p) st.

(** The generate button: [disabled={isProcessing}] and its label. *)
Definition generate_disabled (st : State) : bool := isProcessing st.

Definition generate_label (st : State) : string :=
  if isProcessing st then "Generating..." else "Generate Audio".

Record UI := { state : State; pending : list Pending }.

Inductive Event :=
| ClickGenerate
| TimerFires
| ClickPlay
| SelectVoiceLanguage (v : string)
| SelectSubtitleLanguage (v : string)
| ClickDualSubtitles
| ClickHighContrast.

Definition handle (ui : UI) (e : Event) : UI :=
  match e with
  | ClickGenerate =>
      if generate_disabled (state ui) then ui
      else {| state := fst (handleGenerateAudio (state ui));
              pending := pending ui ++ snd (handleGenerateAudio (state ui)) |}
  | TimerFires =>
      match pending ui with
      | [] => ui
      | p :: rest => {| state := elapse p (state ui); pending := rest |}
      end
  | ClickPlay =>
      {| state := setIsPlaying (negb (isPlaying (state ui))) (state ui);
         pending := pending ui |}
  | SelectVoiceLanguage v =>
      {| state := setSelectedVoiceLanguage v (state ui);
         pending := pending ui |}
  | SelectSubtitleLanguage v =>
      {| state := setSubtitleLanguage v (state ui); pending := pending ui |}
  | ClickDualSubtitles =>
      {| state := setIsDualSubtitles (negb (isDualSubtitles (state ui)))
                    (state ui);
         pending := pending ui |}
  | ClickHighContrast =>
      {| state := setHighContrast (negb (highContrast (state ui))) (state ui);
         pending := pending ui |}
  end.

Definition mounted : UI := {| state := initial_state; pending := [] |}.

End Pages_VoiceModule.

(** ** Navigation between the pages *)
Module Navigation.

(** The screen once the timers of a render of the variant with
    authentication have fired. *)
Definition tick (pathname : string) (st : AuthState) (currentPage : Page)
  : Page :=
  match App_auth.App pathname st currentPage with
  | Normal r => next_tick (scheduled r) currentPage
  | Throws _ => currentPage
  end.

End Navigation.

(** ** pages/AuthCallback from its mount

    The handler is started by the effect of the render that mounts the
    page, under a provider whose store is still in its initial state, and
    it keeps the [user] of that render.  While it waits the subscription
    may write the store; the handler reads nothing of the store, so where
    its wait falls among these updates does not change what it does. *)
Module CallbackMount.
Import Contexts_AuthContext.

Definition mount_run (env : Env) (outer : list Ancestor)
    (during_delay : list StoreUpdate) (location : string)
  : World * Completion unit :=
  let at_mount := SessionTraces.mounted location in
  match Pages_AuthCallback.AuthCallback_effect
          (AuthProvider (auth at_mount) outer) with
  | Throws t => (at_mount, Throws t)
  | Normal handler => handler env (apply_updates env during_delay at_mount)
  end.

End CallbackMount.

(** * Properties *)

Section SessionStore.
Import Contexts_AuthContext.

Variable env : Env.

(** What each of the two writers leaves in the store. *)
Lemma getInitialSession_auth (w : World) (r : Supabase.GetSessionResponse) :
  auth (fst (getInitialSession (with_getSession (Resolved r) env) w)) =
  {| user := session_user (Supabase.data_session r);
     session := Supabase.data_session r;
     loading := false |}.
Proof. reflexivity. Qed.

Lemma onAuthStateChange_auth (w : World) event s :
  auth (fst (onAuthStateChange_callback event s env w)) =
  {| user := session_user s; session := s; loading := false |}.
Proof. reflexivity. Qed.

Lemma apply_update_loading (w : World) (u : StoreUpdate) :
  loading (auth (apply_update env w u)) = false.
Proof. destruct u; reflexivity. Qed.

Lemma apply_update_user (w : World) (u : StoreUpdate) :
  user (auth (apply_update env w u)) =
  session_user (session (auth (apply_update env w u))).
Proof. destruct u; reflexivity. Qed.

Lemma apply_updates_snoc (us : list StoreUpdate) (u : StoreUpdate) (w : World) :
  apply_updates env (us ++ [u]) w = apply_update env (apply_updates env us w) u.
Proof. unfold apply_updates. now rewrite fold_left_app. Qed.

Lemma apply_updates_loading (first : StoreUpdate) (rest : list StoreUpdate)
    (w : World) :
  loading (auth (apply_updates env (first :: rest) w)) = false.
Proof.
  destruct (@exists_last _ (first :: rest)) as (us & u & E); [discriminate|].
  rewrite E, apply_updates_snoc. apply apply_update_loading.
Qed.

End SessionStore.

(** The initial fetch is one more writer: when it resolves after a
    notification, the store holds what the fetch returned. *)
Example late_initial_fetch_overwrites (env : Env) (w : World) :
  let us :=
    [Contexts_AuthContext.AuthStateChanged Supabase.SIGNED_IN
       (Some Samples.asha_session);
     Contexts_AuthContext.InitialFetchResolved
       {| Supabase.data_session := None; Supabase.gs_error := None |}] in
  user (auth (Contexts_AuthContext.apply_updates env us w)) = None.
Proof. reflexivity. Qed.

(** C1. Whatever the store went through before (the initial fetch, earlier
    notifications), once an auth-change notification [(event, session)] is
    the latest one delivered the store's [user] is that session's user
    ([None] when the session is null) and its [session] is that session;
    [loading] starts true and is false after the first update, be it the
    resolution of the initial fetch or a notification, and after every
    later one. *)
Theorem C1_store_follows_latest_auth_event :
  forall (env : Env) (w : World)
         (earlier : list Contexts_AuthContext.StoreUpdate)
         (event : Supabase.AuthChangeEvent) (s : option Supabase.Session)
         (first : Contexts_AuthContext.StoreUpdate)
         (rest : list Contexts_AuthContext.StoreUpdate),
    let latest := Contexts_AuthContext.AuthStateChanged event s in
    let w' := Contexts_AuthContext.apply_updates env (earlier ++ [latest]) w in
    user (auth w') =
      match s with Some s' => Some (Supabase.user s') | None => None end
    /\ session (auth w') = s
    /\ loading Contexts_AuthContext.initial_state = true
    /\ loading (auth (Contexts_AuthContext.apply_updates env (first :: rest) w))
       = false.
Proof.
  intros env w earlier event s first rest latest w'.
  subst w' latest. rewrite apply_updates_snoc.
  split; [| split; [| split]].
  - now destruct s.
  - reflexivity.
  - reflexivity.
  - apply apply_updates_loading.
Qed.

(** C5. After an update of the store, by the initial fetch or by an
    auth-change notification, [user] is null exactly when [session] is
    null, and the store holds at most one current session; the same is
    true of the store before any update. *)
Theorem C5_user_null_iff_no_session :
  forall (env : Env) (w : World) (u : Contexts_AuthContext.StoreUpdate),
    let st := auth (Contexts_AuthContext.apply_update env w u) in
    (user st = None <-> session st = None)
    /\ length (Contexts_AuthContext.current_sessions st) <= 1
    /\ (user Contexts_AuthContext.initial_state = None
        <-> session Contexts_AuthContext.initial_state = None)
    /\ length (Contexts_AuthContext.current_sessions
                 Contexts_AuthContext.initial_state) <= 1.
Proof.
  intros env w u st.
  assert (E : user st = Contexts_AuthContext.session_user (session st))
    by apply apply_update_user.
  split; [| split; [| split]].
  - rewrite E. destruct (session st); simpl; split; congruence.
  - unfold Contexts_AuthContext.current_sessions.
    destruct (session st); simpl; lia.
  - simpl. tauto.
  - simpl. lia.
Qed.

(** ** Runs of the asynchronous functions *)

(** Unfolds a run of monadic code and flattens the log it leaves. *)
Ltac run_js :=
  cbv [Contexts_AuthContext.signOut Contexts_AuthContext.signInWithGoogle
       Pages_AuthCallback.handleAuthCallback
       bind try_catch ret throw perform await read_origin
       console_log console_error alert sleep
       setSession setUser setLoading set_href emit
       supabase_auth_getSession supabase_auth_signInWithOAuth
       supabase_auth_signOut
       with_getSession with_signInOAuth with_signOut failed
       getSession_result signInOAuth_result signOut_result origin
       auth href effects user session loading
       Supabase.error Supabase.gs_error Supabase.data_session];
  cbn [fst snd]; rewrite <- ?app_assoc; cbn [app].

(** Neither method of the context writes [user] or [session]. *)
Lemma methods_keep_user_and_session (env : Env) (w : World) :
  let after_in := auth (fst (Contexts_AuthContext.signInWithGoogle env w)) in
  let after_out := auth (fst (Contexts_AuthContext.signOut env w)) in
  user after_in = user (auth w) /\ session after_in = session (auth w)
  /\ user after_out = user (auth w) /\ session after_out = session (auth w).
Proof.
  destruct env as [o gs si so]; destruct w as [a h e].
  destruct si as [[[err|]]|t]; destruct so as [[[err'|]]|t'];
    run_js; repeat split.
Qed.

(** C3. Whatever the backend's answer to the sign-out call (it resolves
    without an error, resolves with an error, or rejects), [signOut()]
    completes without throwing, shows the failure alert exactly when the
    call failed, and ends by assigning ["/"] to [window.location.href];
    the store is not written. *)
Theorem C3_signOut_always_navigates_to_root :
  forall (env : Env) (w : World),
    let notice :=
      if failed (signOut_result env)
      then [ConsoleError "Error signing out:";
            Alert "Failed to sign out. Please try again."]
      else [] in
    Contexts_AuthContext.signOut env w =
      ({| auth := auth w;
          href := "/";
          effects := effects w ++ [SignOut] ++ notice ++ [SetHref "/"] |},
       Normal tt)
    /\ alerts notice =
       (if failed (signOut_result env)
        then ["Failed to sign out. Please try again."] else []).
Proof.
  intros env w notice; subst notice.
  destruct env as [o gs si so]; destruct w as [a h e].
  destruct so as [[[err|]]|t]; split; run_js; reflexivity.
Qed.

(** C4. [signInWithGoogle()] first sets [loading] to true, then calls the
    backend's OAuth initiation for provider google with redirect URL
    [<origin>/auth/callback].  When the call fails it logs, shows the
    failure alert and sets [loading] back to false; when it succeeds it
    does nothing more, so [loading] stays true.  In both cases [user] and
    [session] are what they were and the function completes without
    throwing. *)
Theorem C4_signInWithGoogle_run :
  forall (env : Env) (w : World),
    let failure := failed (signInOAuth_result env) in
    let recovery :=
      if failure
      then [ConsoleError "Error signing in with Google:";
            Alert "Failed to sign in with Google. Please try again.";
            SetLoading false]
      else [] in
    Contexts_AuthContext.signInWithGoogle env w =
      ({| auth := {| user := user (auth w);
                     session := session (auth w);
                     loading := negb failure |};
          href := href w;
          effects := effects w ++
            [SetLoading true;
             SignInWithOAuth "google" (origin env ++ "/auth/callback")] ++
            recovery |},
       Normal tt)
    /\ alerts recovery =
       (if failure
        then ["Failed to sign in with Google. Please try again."] else []).
Proof.
  intros env w failure recovery; subst failure recovery.
  destruct env as [o gs si so]; destruct w as [a h e].
  destruct si as [[[err|]]|t]; split; run_js; reflexivity.
Qed.

(** What one run of the callback handler does, by the user of the render
    it belongs to and the answer of the backend.  The handler first waits
    1000 ms.  If the render it belongs to saw a user, it assigns ["/"] to the location without
    calling the backend.  Otherwise it calls [getSession()] exactly once
    and assigns ["/?error=auth_failed"] when the answer carries an error,
    ["/"] when it carries a session and ["/"] when it carries none; when
    the call rejects, the handler catches the exception and assigns
    ["/?error=unexpected_error"].  It never throws and never writes the
    store.  The user the handler tests is the one the provider above the
    page held when the page rendered. *)
Lemma handleAuthCallback_run_by_case :
  forall (env : Env) (w : World) (u : Supabase.User)
         (ds : option Supabase.Session) (e : Supabase.AuthError)
         (s : Supabase.Session) (t : Thrown)
         (st : AuthState) (outer : list Contexts_AuthContext.Ancestor),
    let run user answer :=
      Pages_AuthCallback.handleAuthCallback user (with_getSession answer env) w in
    let ending url ops :=
      ({| auth := auth w; href := url; effects := effects w ++ ops |},
       Normal tt) in
    let fetched (r : World * Completion unit) :=
      getSession_calls (effects (fst r)) - getSession_calls (effects w) in
    (forall answer,
       run (Some u) answer =
         ending "/" [AwaitTimeout 1000;
                     ConsoleLog "Authentication successful:";
                     SetHref "/"])
    /\ run None (Resolved {| Supabase.data_session := ds;
                             Supabase.gs_error := Some e |}) =
      ending "/?error=auth_failed"
             [AwaitTimeout 1000; GetSession;
              ConsoleError "Error handling auth callback:";
              SetHref "/?error=auth_failed"]
    /\ run None (Resolved {| Supabase.data_session := Some s;
                             Supabase.gs_error := None |}) =
      ending "/" [AwaitTimeout 1000; GetSession;
                  ConsoleLog "Authentication successful:";
                  SetHref "/"]
    /\ run None (Resolved {| Supabase.data_session := None;
                             Supabase.gs_error := None |}) =
      ending "/" [AwaitTimeout 1000; GetSession; SetHref "/"]
    /\ run None (Rejected t) =
      ending "/?error=unexpected_error"
             [AwaitTimeout 1000; GetSession;
              ConsoleError "Unexpected error during auth callback:";
              SetHref "/?error=unexpected_error"]
    /\ (forall answer, fetched (run (Some u) answer) = 0)
    /\ (forall answer, fetched (run None answer) = 1)
    /\ Pages_AuthCallback.AuthCallback_effect
         (Contexts_AuthContext.AuthProvider st outer)
       = Normal (Pages_AuthCallback.handleAuthCallback (user st)).
Proof.
  intros env w u ds e s t st outer run ending fetched.
  subst run ending fetched.
  destruct env as [o gs si so]; destruct w as [a h ops].
  assert (count : forall l,
            getSession_calls (ops ++ l) - getSession_calls ops
            = getSession_calls l).
  { intro l. unfold getSession_calls.
    rewrite filter_app, length_app. lia. }
  repeat match goal with |- _ /\ _ => split end;
    try (run_js; reflexivity).
  - intro answer. run_js. rewrite count. reflexivity.
  - intros [[d [err|]]|t']; run_js; try destruct d; run_js;
      rewrite count; reflexivity.
Qed.

(** C2, at the failing input.  The handler that the mount of the callback
    page starts belongs to a render that saw no user.  Whatever the store
    is told while the handler waits, in particular when a sign-in
    notification has given it a user, the handler does not test the
    store: it calls [getSession()] once and, when the answer carries an
    error, assigns ["/?error=auth_failed"] to the location, although the
    store reports a user. *)
Theorem C2_mount_run_fetches_whatever_the_store_reports :
  forall (env : Env) (outer : list Contexts_AuthContext.Ancestor)
         (during_delay : list Contexts_AuthContext.StoreUpdate)
         (location : string)
         (ds : option Supabase.Session) (e : Supabase.AuthError),
    let failing :=
      with_getSession
        (Resolved {| Supabase.data_session := ds;
                     Supabase.gs_error := Some e |}) env in
    let told us :=
      Contexts_AuthContext.apply_updates failing us
        (SessionTraces.mounted location) in
    let signed_in :=
      [Contexts_AuthContext.AuthStateChanged Supabase.SIGNED_IN
         (Some Samples.asha_session)] in
    let r := CallbackMount.mount_run failing outer during_delay location in
    Pages_AuthCallback.AuthCallback_effect
      (Contexts_AuthContext.AuthProvider
         (auth (SessionTraces.mounted location)) outer)
      = Normal (Pages_AuthCallback.handleAuthCallback None)
    /\ snd r = Normal tt
    /\ href (fst r) = "/?error=auth_failed"
    /\ getSession_calls (effects (fst r))
       = S (getSession_calls (effects (told during_delay)))
    /\ auth (fst r) = auth (told during_delay)
    /\ user (auth (told signed_in)) = Some Samples.asha
    /\ href (fst (CallbackMount.mount_run failing outer signed_in location))
       = "/?error=auth_failed".
Proof.
  intros env outer during_delay location ds e failing told signed_in r.
  subst r. unfold CallbackMount.mount_run.
  change (Pages_AuthCallback.AuthCallback_effect
            (Contexts_AuthContext.AuthProvider
               (auth (SessionTraces.mounted location)) outer))
    with (@Normal (M unit) (Pages_AuthCallback.handleAuthCallback None)).
  cbv iota beta.
  assert (run : forall w,
            Pages_AuthCallback.handleAuthCallback None failing w
            = ({| auth := auth w; href := "/?error=auth_failed";
                  effects := effects w ++
                    [AwaitTimeout 1000; GetSession;
                     ConsoleError "Error handling auth callback:";
                     SetHref "/?error=auth_failed"] |}, Normal tt)).
  { intros [a h ops]. subst failing. destruct env as [o gs si so].
    run_js. reflexivity. }
  split; [reflexivity|].
  fold (told during_delay). fold (told signed_in).
  rewrite !run. cbn [fst snd auth href effects].
  split; [reflexivity|]. split; [reflexivity|].
  split.
  { unfold getSession_calls. rewrite filter_app, length_app. simpl. lia. }
  split; [reflexivity|]. split; reflexivity.
Qed.

(** ** Navigation *)

Lemma renderPage_presenter (p : Page) : renderPage p = presenter_of p.
Proof. destruct p; reflexivity. Qed.

(** C6. When [AppContent] renders under a provider whose [user] is
    non-null, on a path other than the callback route and with [landing] as
    the current screen, it schedules exactly one zero-delay timer; once
    that timer has fired, the current screen is [learner], hence none of
    [admin], [translation], [voice].  The render itself still returns the
    landing page. *)
Theorem C6_user_on_landing_goes_to_learner :
  forall (pathname : string) (ancestors : list Contexts_AuthContext.Ancestor)
         (context : AuthContextType.t) (u : Supabase.User),
    Contexts_AuthContext.useAuth ancestors = Normal context ->
    AuthContextType.user context = Some u ->
    pathname <> "/auth/callback" ->
    exists r,
      App_auth.AppContent pathname ancestors landing = Normal r
      /\ element r = LandingPage
      /\ scheduled r = [ {| ms := 0; page := learner |} ]
      /\ next_tick (scheduled r) landing = learner
      /\ next_tick (scheduled r) landing <> admin
      /\ next_tick (scheduled r) landing <> translation
      /\ next_tick (scheduled r) landing <> voice.
Proof.
  intros pathname ancestors context u Hctx Hu Hpath.
  unfold App_auth.AppContent. rewrite Hctx, Hu.
  apply String.eqb_neq in Hpath. rewrite Hpath. simpl.
  eexists; split; [reflexivity|].
  simpl. repeat split; discriminate.
Qed.

Lemma C6_witness :
  Contexts_AuthContext.useAuth
    (Contexts_AuthContext.AuthProvider Samples.signed_in [])
  = Normal (Contexts_AuthContext.value Samples.signed_in)
  /\ AuthContextType.user (Contexts_AuthContext.value Samples.signed_in)
     = Some Samples.asha
  /\ "/" <> "/auth/callback"
  /\ exists r,
    App_auth.AppContent "/"
      (Contexts_AuthContext.AuthProvider Samples.signed_in []) landing
    = Normal r
    /\ element r = LandingPage
    /\ scheduled r = [ {| ms := 0; page := learner |} ]
    /\ next_tick (scheduled r) landing = learner
    /\ next_tick (scheduled r) landing <> admin
    /\ next_tick (scheduled r) landing <> translation
    /\ next_tick (scheduled r) landing <> voice.
Proof.
  split; [reflexivity|]. split; [reflexivity|]. split; [discriminate|].
  apply (@C6_user_on_landing_goes_to_learner "/"
           (Contexts_AuthContext.AuthProvider Samples.signed_in [])
           (Contexts_AuthContext.value Samples.signed_in) Samples.asha).
  - reflexivity.
  - reflexivity.
  - discriminate.
Defined.

(** C7. [navigate] (the state setter handed to every presenter) replaces
    the current screen: calling it twice, or any number of times, with the
    same screen leaves the state a single call leaves.  Each of the five
    screens selects its own presenter, in the variant without
    authentication and, off the callback route, in the variant with it
    (on the callback route that variant mounts the callback page).  The
    initial screen, which a reload restores, is [landing]. *)
Theorem C7_navigate_idempotent :
  forall (s cur : Page) (n : nat) (pathname : string) (st : AuthState),
    setCurrentPage s (setCurrentPage s cur) = setCurrentPage s cur
    /\ Nat.iter (S n) (setCurrentPage learner) cur = setCurrentPage learner cur
    /\ Nat.iter (S n) (setCurrentPage s) cur = setCurrentPage s cur
    /\ renderPage (setCurrentPage s cur) = presenter_of s
    /\ element (App_plain.App (setCurrentPage s cur)) = presenter_of s
    /\ (exists r,
          App_auth.App pathname st (setCurrentPage s cur) = Normal r
          /\ element r = if pathname =? "/auth/callback"
                         then AuthCallback else presenter_of s)
    /\ initial_currentPage = landing
    /\ renderPage initial_currentPage = LandingPage.
Proof.
  intros s cur n pathname st.
  split; [reflexivity|]. split; [reflexivity|]. split; [reflexivity|].
  split; [apply renderPage_presenter|].
  split; [apply renderPage_presenter|].
  split; [|split; reflexivity].
  unfold App_auth.App, App_auth.AppContent. simpl.
  destruct (pathname =? "/auth/callback"); eexists; split; try reflexivity.
  apply renderPage_presenter.
Qed.

(** C10. With no user in the store and off the callback route, the variant
    with authentication renders, for each of the five screens, exactly what
    the variant without authentication renders: the same presenter and no
    timer. *)
Theorem C10_variants_agree_without_user :
  forall (p : Page) (pathname : string) (st : AuthState),
    user st = None ->
    pathname <> "/auth/callback" ->
    App_auth.App pathname st p = Normal (App_plain.App p)
    /\ element (App_plain.App p) = presenter_of p.
Proof.
  intros p pathname st Hu Hpath.
  unfold App_auth.App, App_auth.AppContent. simpl.
  apply String.eqb_neq in Hpath. rewrite Hpath, Hu. simpl.
  split; [reflexivity | apply renderPage_presenter].
Qed.

Lemma C10_witness :
  user Samples.signed_out = None
  /\ "/" <> "/auth/callback"
  /\ App_auth.App "/" Samples.signed_out voice = Normal (App_plain.App voice)
  /\ element (App_plain.App voice) = presenter_of voice.
Proof.
  split; [reflexivity|]. split; [discriminate|].
  apply (@C10_variants_agree_without_user voice "/" Samples.signed_out).
  - reflexivity.
  - discriminate.
Defined.

(** ** The [useAuth] accessor *)

(** C9. Called where no [AuthContext.Provider] is among the ancestors,
    [useAuth] throws [Error('useAuth must be used within an
    AuthProvider')].  Called below an [AuthProvider], with any elements
    other than providers in between, it returns that provider's value,
    whose fields are the provider's [user], [session] and [loading] and
    the functions [signInWithGoogle] and [signOut]. *)
Theorem C9_useAuth_outside_and_inside_provider :
  forall (names between : list string) (st : AuthState)
         (outer : list Contexts_AuthContext.Ancestor),
    let plain := map Contexts_AuthContext.OtherElement in
    let inside :=
      Contexts_AuthContext.useAuth
        (plain between ++ Contexts_AuthContext.AuthProvider st outer) in
    Contexts_AuthContext.useAuth (plain names)
      = Throws (JsError "useAuth must be used within an AuthProvider")
    /\ inside = Normal (Contexts_AuthContext.value st)
    /\ inside =
       Normal {| AuthContextType.user := user st;
                 AuthContextType.session := session st;
                 AuthContextType.loading := loading st;
                 AuthContextType.signInWithGoogle :=
                   Contexts_AuthContext.signInWithGoogle;
                 AuthContextType.signOut := Contexts_AuthContext.signOut |}.
Proof.
  intros names between st outer plain inside; subst plain inside.
  unfold Contexts_AuthContext.useAuth.
  split; [| split].
  - induction names as [|n names IH]; [reflexivity | exact IH].
  - induction between as [|n between IH]; [reflexivity | exact IH].
  - induction between as [|n between IH]; [reflexivity | exact IH].
Qed.

(** ** The translate operation of the translation page *)

Lemma sourceText_neq_translatedText :
  Pages_TranslationModule.sourceText <> Pages_TranslationModule.translatedText.
Proof. apply String.eqb_neq. vm_compute. reflexivity. Qed.

(** C8, as stated, fails.  From the initial state, invoke the translate
    operation and let its delay elapse: no pane shows one of the two
    hardcoded strings before the delay has elapsed and the other one
    after. *)
Lemma C8_counterexample :
  ~ Pages_TranslationModule.swaps_displayed_text
      (Pages_TranslationModule.render
         (fst (Pages_TranslationModule.handleTranslate
                 Pages_TranslationModule.initial_state)))
      (Pages_TranslationModule.render
         (Pages_TranslationModule.elapse
            {| Pages_TranslationModule.delay := 2000;
               Pages_TranslationModule.value := false |}
            (fst (Pages_TranslationModule.handleTranslate
                    Pages_TranslationModule.initial_state)))).
Proof.
  intros (pane & Hin & H).
  pose proof sourceText_neq_translatedText as Hneq.
  destruct Hin as [<- | [<- | []]]; simpl in H;
    destruct H as [[H1 H2] | [H1 H2]]; congruence.
Qed.

(** C8, amended.  The translate operation sets [isTranslating] and starts
    one timer of 2000 ms that clears it.  While the timer runs the button
    is disabled and reads "Translating..."; once it has fired the button
    is enabled and reads "Translate".  Before, during and after, the source
    pane shows the hardcoded source string and the target pane the
    hardcoded translated string; the other state cells are not written. *)
Theorem C8_translate_toggles_flag_only :
  forall (st : Pages_TranslationModule.State),
    let during := fst (Pages_TranslationModule.handleTranslate st) in
    let timers := snd (Pages_TranslationModule.handleTranslate st) in
    let after :=
      fold_left (fun s p => Pages_TranslationModule.elapse p s) timers during in
    let shows v :=
      Pages_TranslationModule.source_pane v = Pages_TranslationModule.sourceText
      /\ Pages_TranslationModule.target_pane v
         = Pages_TranslationModule.translatedText in
    timers = [ {| Pages_TranslationModule.delay := 2000;
                  Pages_TranslationModule.value := false |} ]
    /\ Pages_TranslationModule.isTranslating during = true
    /\ Pages_TranslationModule.isTranslating after = false
    /\ Pages_TranslationModule.translate_disabled
         (Pages_TranslationModule.render during) = true
    /\ Pages_TranslationModule.translate_label
         (Pages_TranslationModule.render during) = "Translating..."
    /\ Pages_TranslationModule.translate_disabled
         (Pages_TranslationModule.render after) = false
    /\ Pages_TranslationModule.translate_label
         (Pages_TranslationModule.render after) = "Translate"
    /\ shows (Pages_TranslationModule.render st)
    /\ shows (Pages_TranslationModule.render during)
    /\ shows (Pages_TranslationModule.render after)
    /\ after = Pages_TranslationModule.setIsTranslating false st.
Proof.
  intros st during timers after shows.
  subst during timers after shows. simpl.
  repeat split.
Qed.


(** * Further properties of the code *)

(** ** The session store under every interleaving *)

(** X1. The initial fetch has no error handling.  When [getSession()]
    rejects, [getInitialSession] throws the rejection and writes nothing:
    a store that was loading is still loading.  When it resolves with an
    [error], the error is ignored: the store takes the answer's session,
    [loading] becomes false and nothing is logged or alerted. *)
Theorem X1_initial_fetch_has_no_error_handling :
  forall (env : Env) (w : World) (t : Thrown)
         (ds : option Supabase.Session) (e : Supabase.AuthError),
    Contexts_AuthContext.getInitialSession (with_getSession (Rejected t) env) w
      = ({| auth := auth w; href := href w;
            effects := effects w ++ [GetSession] |}, Throws t)
    /\ loading (auth (SessionTraces.run env
                        [SessionTraces.InitialFetchRejected t]
                        (SessionTraces.mounted (href w)))) = true
    /\ Contexts_AuthContext.getInitialSession
         (with_getSession
            (Resolved {| Supabase.data_session := ds;
                         Supabase.gs_error := Some e |}) env) w
       = ({| auth := {| user := Contexts_AuthContext.session_user ds;
                        session := ds; loading := false |};
             href := href w;
             effects := effects w ++
               [GetSession; SetSession ds;
                SetUser (Contexts_AuthContext.session_user ds);
                SetLoading false] |}, Normal tt).
Proof.
  intros env w t ds e.
  destruct env as [o gs si so]; destruct w as [a h ops].
  split; [| split];
    cbv [Contexts_AuthContext.getInitialSession SessionTraces.run
         SessionTraces.step SessionTraces.mounted fold_left];
    run_js; reflexivity.
Qed.

Lemma step_keeps_user_of_session (env : Env) (w : World)
    (a : SessionTraces.Action) :
  user (auth w) = Contexts_AuthContext.session_user (session (auth w)) ->
  user (auth (SessionTraces.step env w a))
  = Contexts_AuthContext.session_user
      (session (auth (SessionTraces.step env w a))).
Proof.
  intro H. destruct a as [u | t | answer | answer]; simpl.
  - apply apply_update_user.
  - exact H.
  - destruct (methods_keep_user_and_session
                (with_signInOAuth answer env) w) as (Hu & Hs & _).
    cbv zeta in Hu, Hs. now rewrite Hu, Hs.
  - destruct (methods_keep_user_and_session
                (with_signOut answer env) w) as (_ & _ & Hu & Hs).
    cbv zeta in Hu, Hs. now rewrite Hu, Hs.
Qed.

(** X2. In every state of the store that can be reached after mount, by
    any interleaving of store updates, a rejected initial fetch, sign-in
    calls and sign-out calls with any backend answers, [user] is the user
    of [session]; so [user] is null exactly when [session] is null. *)
Theorem X2_user_is_session_user_in_every_reachable_state :
  forall (env : Env) (location : string)
         (actions : list SessionTraces.Action),
    let st := auth (SessionTraces.run env actions
                      (SessionTraces.mounted location)) in
    user st = Contexts_AuthContext.session_user (session st)
    /\ (user st = None <-> session st = None).
Proof.
  intros env location actions st.
  assert (E : user st = Contexts_AuthContext.session_user (session st)).
  { subst st. unfold SessionTraces.run.
    assert (G : forall w,
               user (auth w)
               = Contexts_AuthContext.session_user (session (auth w)) ->
               user (auth (fold_left (SessionTraces.step env) actions w))
               = Contexts_AuthContext.session_user
                   (session (auth (fold_left (SessionTraces.step env)
                                             actions w)))).
    { induction actions as [|a actions IH]; intros w Hw; [exact Hw|].
      simpl. apply IH. now apply step_keeps_user_of_session. }
    apply G. reflexivity. }
  split; [exact E|].
  rewrite E. destruct (session st); simpl; split; congruence.
Qed.





(** ** The sign-in controls *)

Lemma before_at_has_no_at (s : string) :
  Components_GoogleLogin.has_at (Components_GoogleLogin.before_at s) = false.
Proof.
  induction s as [|c s IH]; simpl; [reflexivity|].
  destruct (Ascii.eqb c "@"%char) eqn:E; simpl; [reflexivity|].
  now rewrite E.
Qed.

Lemma before_at_prefix (s : string) :
  String.prefix (Components_GoogleLogin.before_at s) s = true.
Proof.
  induction s as [|c s IH]; simpl; [reflexivity|].
  destruct (Ascii.eqb c "@"%char); simpl; [reflexivity|].
  destruct (ascii_dec c c) as [_|n]; [exact IH | now elim n].
Qed.

(** X4. [split('@')[0]] of a string has no ['@'], is a prefix of the
    string, and is followed in it by an ['@'] unless the string has none,
    in which case it is the whole string. *)
Theorem X4_before_at_is_the_local_part :
  forall (s : string),
    Components_GoogleLogin.has_at (Components_GoogleLogin.before_at s) = false
    /\ String.prefix (Components_GoogleLogin.before_at s) s = true
    /\ ((Components_GoogleLogin.has_at s = false
         /\ Components_GoogleLogin.before_at s = s)
        \/ (Components_GoogleLogin.has_at s = true
            /\ exists rest,
                 s = Components_GoogleLogin.before_at s ++ String "@" rest)).
Proof.
  intro s.
  split; [apply before_at_has_no_at|]. split; [apply before_at_prefix|].
  induction s as [|c s IH]; simpl.
  - left. split; reflexivity.
  - destruct (Ascii.eqb_spec c "@"%char) as [-> | Hc]; simpl.
    + right. split; [reflexivity|]. now exists s.
    + destruct IH as [[H1 H2] | [H1 [rest H2]]].
      * left. split; [assumption | now rewrite H2].
      * right. split; [assumption|]. exists rest. now rewrite <- H2.
Qed.

Lemma before_at_splits (s : string) :
  s = Components_GoogleLogin.before_at s
  \/ exists rest, s = Components_GoogleLogin.before_at s ++ String "@" rest.
Proof.
  induction s as [|c s IH]; simpl; [now left|].
  destruct (Ascii.eqb_spec c "@"%char) as [-> | Hc]; simpl.
  - right. now exists s.
  - destruct IH as [H | [rest H]].
    + left. now rewrite <- H.
    + right. exists rest. now rewrite <- H.
Qed.

(** X5. The name shown for a user is the [full_name] of the metadata when
    that is a non-empty string.  Otherwise, also when [full_name] is the
    empty string, it is the email up to its first ['@']: a string without
    ['@'] that is the whole email or is followed in the email by an
    ['@'].  No name at all is shown when the user has no email. *)
Theorem X5_display_name_falls_back_to_email :
  forall (u : Supabase.User),
    let full_name := Supabase.full_name (Supabase.user_metadata u) in
    let shown := Components_GoogleLogin.display_name u in
    match full_name with
    | Some (String c rest) => shown = Some (String c rest)
    | _ =>
        match Supabase.email u with
        | Some email =>
            exists name,
              shown = Some name
              /\ Components_GoogleLogin.has_at name = false
              /\ (email = name
                  \/ exists rest, email = name ++ String "@" rest)
        | None => shown = None
        end
    end.
Proof.
  intros [i e [a f p]] full_name shown; subst full_name shown.
  unfold Components_GoogleLogin.display_name; simpl.
  assert (fallback : forall email,
            exists name,
              Some (Components_GoogleLogin.before_at email) = Some name
              /\ Components_GoogleLogin.has_at name = false
              /\ (email = name
                  \/ exists rest, email = name ++ String "@" rest)).
  { intro email. eexists; split; [reflexivity|].
    split; [apply before_at_has_no_at | apply before_at_splits]. }
  destruct f as [[|c rest]|]; simpl; try reflexivity;
    destruct e as [email|]; try reflexivity; apply fallback.
Qed.

(** ** Components that read the authentication context *)

Lemma useAuth_without_provider (names : list string) :
  Contexts_AuthContext.useAuth (map Contexts_AuthContext.OtherElement names)
  = Throws (JsError "useAuth must be used within an AuthProvider").
Proof.
  unfold Contexts_AuthContext.useAuth.
  induction names as [|n names IH]; [reflexivity | exact IH].
Qed.

Lemma useAuth_below_provider (between : list string) (st : AuthState)
    (outer : list Contexts_AuthContext.Ancestor) :
  Contexts_AuthContext.useAuth
    (map Contexts_AuthContext.OtherElement between
       ++ Contexts_AuthContext.AuthProvider st outer)%list
  = Normal (Contexts_AuthContext.value st).
Proof.
  unfold Contexts_AuthContext.useAuth.
  induction between as [|n between IH]; [reflexivity | exact IH].
Qed.

(** X6. [GoogleLogin], [LearnerModule] and [LandingPage] (through the
    [GoogleLogin] elements it mounts, whether or not the mobile menu is
    open) cannot be rendered without an [AuthProvider] above them: the
    render throws the error of [useAuth].  Below a provider the landing
    page renders two sign-in controls, three when the mobile menu is open,
    all showing the same thing. *)
Theorem X6_pages_need_an_AuthProvider :
  forall (names between : list string) (st : AuthState)
         (outer : list Contexts_AuthContext.Ancestor)
         (ls : Pages_LearnerModule.State) (mobileMenuOpen : bool),
    let orphan := map Contexts_AuthContext.OtherElement names in
    let provided :=
      (map Contexts_AuthContext.OtherElement between
         ++ Contexts_AuthContext.AuthProvider st outer)%list in
    let missing :=
      JsError "useAuth must be used within an AuthProvider" in
    Components_GoogleLogin.GoogleLogin orphan = Throws missing
    /\ Pages_LearnerModule.LearnerModule orphan ls = Throws missing
    /\ Pages_LandingPage.LandingPage orphan mobileMenuOpen = Throws missing
    /\ exists v,
         Components_GoogleLogin.GoogleLogin provided = Normal v
         /\ Pages_LandingPage.LandingPage provided mobileMenuOpen
            = Normal (repeat v (if mobileMenuOpen then 3 else 2)).
Proof.
  intros names between st outer ls m orphan provided missing.
  subst orphan provided missing.
  unfold Components_GoogleLogin.GoogleLogin, Pages_LearnerModule.LearnerModule,
    Pages_LandingPage.LandingPage, Components_GoogleLogin.GoogleLogin.
  pose proof (useAuth_without_provider ("LandingPage" :: names)) as Horphan.
  pose proof (useAuth_below_provider ("LandingPage" :: between) st outer)
    as Hprovided.
  cbn [map app] in Horphan, Hprovided.
  rewrite (useAuth_without_provider names), Horphan.
  split; [reflexivity|]. split; [reflexivity|].
  split; [destruct m; reflexivity|].
  rewrite (useAuth_below_provider between st outer), Hprovided.
  simpl. destruct (loading st).
  - eexists; split; [reflexivity | destruct m; reflexivity].
  - destruct (user st);
      (eexists; split; [reflexivity | destruct m; reflexivity]).
Qed.

(** X7. For a signed-in user, the navigation bar of [LearnerModule] and
    [GoogleLogin] show the same picture and the same name and offer the
    same sign-out handler; the account label of [LearnerModule] is always
    "Google Account", so the two labels agree exactly when the user's
    provider is google. *)
Theorem X7_learner_controls_agree_with_GoogleLogin :
  forall (u : Supabase.User) (s : option Supabase.Session)
         (outer : list Contexts_AuthContext.Ancestor)
         (ls : Pages_LearnerModule.State),
    let st := {| user := Some u; session := s; loading := false |} in
    let above := Contexts_AuthContext.AuthProvider st outer in
    exists picture name label handler heading home,
      Components_GoogleLogin.GoogleLogin above
        = Normal (Components_GoogleLogin.UserInfo picture name label handler)
      /\ Pages_LearnerModule.LearnerModule above ls
         = Normal {| Pages_LearnerModule.auth_controls :=
                       Pages_LearnerModule.SignedIn picture name
                         "Google Account" handler;
                     Pages_LearnerModule.heading := heading;
                     Pages_LearnerModule.home_onClick := home |}
      /\ handler = Contexts_AuthContext.signOut
      /\ (label = "Google Account"
          <-> Supabase.provider (Supabase.user_metadata u) = Some "google").
Proof.
  intros u s outer ls st above; subst st above.
  do 6 eexists. split; [reflexivity|]. split; [reflexivity|].
  split; [reflexivity|].
  unfold Components_GoogleLogin.account_label.
  destruct (Supabase.provider (Supabase.user_metadata u)) as [p|].
  - destruct (String.eqb_spec p "google") as [-> | Hp].
    + split; reflexivity.
    + split; [discriminate | congruence].
  - split; discriminate.
Qed.

(** ** The technical glossary of the translation page *)

Section GlossaryLemmas.
Import Glossary.

Lemma filter_from_keeps_all {A} (keep : A -> nat -> bool) (l : list A) :
  forall i, (forall x j, i <= j -> keep x j = true) ->
            filter_from i keep l = l.
Proof.
  induction l as [|x l IH]; intros i H; simpl; [reflexivity|].
  rewrite (H x i (le_n i)). f_equal. apply IH. intros y j Hj. apply H. lia.
Qed.

Lemma filter_from_drops_one {A} (keep : A -> nat -> bool) (l : list A) :
  forall i n, (forall x j, keep x j = negb (Nat.eqb j (i + n))) ->
              filter_from i keep l = (firstn n l ++ skipn (S n) l)%list.
Proof.
  induction l as [|x l IH]; intros i n H; simpl.
  - now destruct n.
  - rewrite H. destruct n as [|n]; simpl.
    + rewrite Nat.add_0_r, Nat.eqb_refl. simpl.
      apply filter_from_keeps_all. intros y j Hj. rewrite H.
      apply negb_true_iff, Nat.eqb_neq. lia.
    + replace (Nat.eqb i (i + S n)) with false
        by (symmetry; apply Nat.eqb_neq; lia).
      simpl. f_equal. apply IH. intros y j. rewrite H. do 2 f_equal. lia.
Qed.

Lemma filter_from_In {A} (keep : A -> nat -> bool) (l : list A) :
  forall i x, In x (filter_from i keep l) -> In x l.
Proof.
  induction l as [|y l IH]; intros i x; simpl; [tauto|].
  destruct (keep y i); simpl; intros H.
  - destruct H as [H | H]; [now left | right; eapply IH; eassumption].
  - right; eapply IH; eassumption.
Qed.

Lemma filter_from_NoDup {A} (keep : A -> nat -> bool) (l : list A) :
  NoDup l -> forall i, NoDup (filter_from i keep l).
Proof.
  induction 1 as [|y l Hy Hl IH]; intro i; simpl; [constructor|].
  destruct (keep y i); [|apply IH].
  constructor; [|apply IH]. intro H. apply Hy. eapply filter_from_In, H.
Qed.

Lemma assign_length r f objs : length (assign r f objs) = length objs.
Proof.
  revert r; induction objs as [|o objs IH]; intros [|r]; simpl;
    try reflexivity. now rewrite IH.
Qed.

Lemma assign_same r f objs :
  nth_error (assign r f objs) r = option_map f (nth_error objs r).
Proof.
  revert r; induction objs as [|o objs IH]; intros [|r]; simpl;
    try reflexivity. apply IH.
Qed.

Lemma assign_other r f objs r' :
  r' <> r -> nth_error (assign r f objs) r' = nth_error objs r'.
Proof.
  revert r r'; induction objs as [|o objs IH]; intros [|r] [|r'] H; simpl;
    try reflexivity; try (now elim H).
  apply IH. lia.
Qed.

Lemma well_formed_initial : well_formed initial_state.
Proof.
  split; simpl.
  - repeat constructor; simpl; intuition discriminate.
  - repeat constructor.
Qed.

Lemma well_formed_handle st e : well_formed st -> well_formed (handle st e).
Proof.
  intros [Hnd Hin]. destruct e as [| index | index value | index value].
  - split; simpl.
    + apply NoDup_app; [assumption | repeat constructor; simpl; tauto |].
      intros r Hr [<- | []]. rewrite Forall_forall in Hin.
      specialize (Hin _ Hr). lia.
    + apply Forall_app. split.
      * eapply Forall_impl; [|exact Hin]. intros r Hr.
        rewrite length_app. simpl in *. lia.
      * repeat constructor. rewrite length_app. simpl. lia.
  - split; simpl.
    + now apply filter_from_NoDup.
    + rewrite Forall_forall in *. intros r Hr.
      apply Hin. eapply filter_from_In, Hr.
  - simpl. unfold onChange_term, onChange.
    destruct (nth_error (glossaryTerms st) index); simpl.
    + split; simpl; [assumption|]. now rewrite assign_length.
    + now split.
  - simpl. unfold onChange_translation, onChange.
    destruct (nth_error (glossaryTerms st) index); simpl.
    + split; simpl; [assumption|]. now rewrite assign_length.
    + now split.
Qed.

Lemma well_formed_reads st :
  well_formed st -> Forall (fun o => exists t, o = Some t) (rendered st).
Proof.
  intros [_ Hin]. unfold rendered, read. apply Forall_map.
  eapply Forall_impl; [|exact Hin]. intros r Hr. simpl in *.
  destruct (nth_error (objects st) r) eqn:E; [eauto|].
  apply nth_error_None in E. lia.
Qed.

End GlossaryLemmas.

(** X8. Whatever the user does to the glossary (adding rows, removing
    rows at any index, typing in either field of any row), the array never
    holds the same object twice and every row it renders is an existing
    object. *)
Theorem X8_glossary_rows_are_distinct_objects :
  forall (events : list Glossary.Event),
    let st := fold_left Glossary.handle events Glossary.initial_state in
    Glossary.well_formed st
    /\ Forall (fun o => exists t, o = Some t) (Glossary.rendered st).
Proof.
  intros events st.
  assert (W : Glossary.well_formed st).
  { subst st. generalize well_formed_initial.
    generalize Glossary.initial_state.
    induction events as [|e events IH]; intros s Hs; [exact Hs|].
    simpl. apply IH. now apply well_formed_handle. }
  split; [exact W | now apply well_formed_reads].
Qed.

(** X9. Typing in a field of row [index] of a well-formed glossary changes
    that field of that row and nothing else: every other row renders as
    before and the array is the same.  The handler assigns to the object
    the previous array holds, so that array shows the new value too.  For
    an index past the end the handler throws before it sets the state. *)
Theorem X9_typing_changes_one_row :
  forall (set : string -> Pages_TranslationModule.GlossaryTerm
                -> Pages_TranslationModule.GlossaryTerm)
         (st : Glossary.State) (index : nat) (value : string) (k : nat),
    Glossary.well_formed st ->
    index < length (Glossary.glossaryTerms st) ->
    (exists st' old,
       Glossary.onChange set index value st = Normal st'
       /\ nth_error (Glossary.rendered st) index = Some (Some old)
       /\ Glossary.glossaryTerms st' = Glossary.glossaryTerms st
       /\ (forall j,
             nth_error (Glossary.rendered st') j
             = if Nat.eqb j index then Some (Some (set value old))
               else nth_error (Glossary.rendered st) j)
       /\ nth_error (Glossary.read (Glossary.objects st')
                                   (Glossary.glossaryTerms st)) index
          = Some (Some (set value old)))
    /\ Glossary.onChange set (length (Glossary.glossaryTerms st) + k) value st
       = Throws Glossary.TypeError_undefined.
Proof.
  intros set [objs arr] index value k [Hnd Hin] Hlt; simpl in *.
  unfold Glossary.Ref in *.
  split.
  - unfold Glossary.onChange; simpl. unfold Glossary.Ref in *.
    destruct (nth_error arr index) as [r|] eqn:Er;
      [| apply nth_error_None in Er; lia].
    assert (Hr : r < length objs).
    { rewrite Forall_forall in Hin. apply Hin.
      eapply nth_error_In, Er. }
    destruct (nth_error objs r) as [old|] eqn:Eo;
      [| apply nth_error_None in Eo; lia].
    assert (row : forall j,
              nth_error
                (Glossary.read (Glossary.assign r (set value) objs) arr) j
              = if Nat.eqb j index then Some (Some (set value old))
                else nth_error (Glossary.read objs arr) j).
    { intro j. unfold Glossary.read. rewrite !nth_error_map.
      destruct (Nat.eqb_spec j index) as [Hj | Hj].
      - subst j. rewrite Er. simpl. now rewrite assign_same, Eo.
      - destruct (nth_error arr j) as [r'|] eqn:Ej; [|reflexivity].
        simpl. f_equal. apply assign_other. intros ->.
        apply Hj. eapply NoDup_nth_error; try eassumption.
        + apply nth_error_Some. congruence.
        + congruence. }
    exists {| Glossary.objects := Glossary.assign r (set value) objs;
              Glossary.glossaryTerms := arr |}, old.
    split; [reflexivity|]. split.
    { unfold Glossary.rendered, Glossary.read; simpl.
      now rewrite nth_error_map, Er; simpl; rewrite Eo. }
    split; [reflexivity|]. split; [exact row|].
    simpl. rewrite row. now rewrite Nat.eqb_refl.
  - unfold Glossary.onChange; simpl. unfold Glossary.Ref in *.
    destruct (nth_error arr (length arr + k)) eqn:E; [|reflexivity].
    assert (length arr + k < length arr)
      by (apply nth_error_Some; congruence). lia.
Qed.

Lemma X9_witness :
  Glossary.well_formed Glossary.initial_state
  /\ 1 < length (Glossary.glossaryTerms Glossary.initial_state)
  /\ exists st' old,
       Glossary.onChange_term 1 "Electric arc" Glossary.initial_state
       = Normal st'
       /\ nth_error (Glossary.rendered Glossary.initial_state) 1
          = Some (Some old)
       /\ Glossary.glossaryTerms st'
          = Glossary.glossaryTerms Glossary.initial_state
       /\ (forall j,
             nth_error (Glossary.rendered st') j
             = if Nat.eqb j 1
               then Some (Some (Glossary.set_term "Electric arc" old))
               else nth_error (Glossary.rendered Glossary.initial_state) j)
       /\ nth_error (Glossary.read (Glossary.objects st')
                       (Glossary.glossaryTerms Glossary.initial_state)) 1
          = Some (Some (Glossary.set_term "Electric arc" old)).
Proof.
  split; [apply well_formed_initial|]. split; [simpl; lia|].
  apply (@X9_typing_changes_one_row Glossary.set_term Glossary.initial_state
           1 "Electric arc" 0).
  - apply well_formed_initial.
  - simpl; lia.
Defined.

(** X10. Removing row [index] leaves the rows before it and the rows
    after it, in order, and frees no object; for an index past the end it
    changes nothing. *)
Theorem X10_remove_drops_exactly_one_row :
  forall (st : Glossary.State) (index k : nat),
    let st' := Glossary.removeGlossaryTerm index st in
    Glossary.objects st' = Glossary.objects st
    /\ Glossary.glossaryTerms st'
       = (firstn index (Glossary.glossaryTerms st)
            ++ skipn (S index) (Glossary.glossaryTerms st))%list
    /\ Glossary.rendered st'
       = (firstn index (Glossary.rendered st)
            ++ skipn (S index) (Glossary.rendered st))%list
    /\ Glossary.removeGlossaryTerm
         (length (Glossary.glossaryTerms st) + k) st = st.
Proof.
  intros [objs arr] index k st'; subst st'.
  assert (E : forall n,
            Glossary.filter_from 0 (fun (_ : Glossary.Ref) i =>
                                      negb (Nat.eqb i n)) arr
            = (firstn n arr ++ skipn (S n) arr)%list).
  { intro n. apply filter_from_drops_one. reflexivity. }
  unfold Glossary.removeGlossaryTerm, Glossary.setGlossaryTerms,
    Glossary.rendered, Glossary.read;
    cbn [Glossary.objects Glossary.glossaryTerms].
  split; [reflexivity|]. split; [apply E|]. split.
  - rewrite E, map_app, firstn_map, skipn_map. reflexivity.
  - rewrite E. f_equal.
    rewrite firstn_all2 by lia.
    rewrite skipn_all2 by lia. apply app_nil_r.
Qed.

(** X11. Adding a row appends one row with two empty fields and leaves
    the others as they render; removing the row just added gives back the
    array and the rendering there were before. *)
Theorem X11_add_then_remove_last :
  forall (st : Glossary.State),
    Glossary.well_formed st ->
    let added := Glossary.addGlossaryTerm st in
    let last := length (Glossary.glossaryTerms st) in
    Glossary.rendered added
      = (Glossary.rendered st
           ++ [Some {| Pages_TranslationModule.term := "";
                       Pages_TranslationModule.translation_ := "" |}])%list
    /\ Glossary.glossaryTerms (Glossary.removeGlossaryTerm last added)
       = Glossary.glossaryTerms st
    /\ Glossary.rendered (Glossary.removeGlossaryTerm last added)
       = Glossary.rendered st.
Proof.
  intros [objs arr] [Hnd Hin] added last; subst added last; simpl in *.
  assert (old : forall o,
            map (nth_error (objs ++ [o])) arr = map (nth_error objs) arr).
  { intro o. apply map_ext_in. intros r Hr.
    rewrite Forall_forall in Hin. apply nth_error_app1. now apply Hin. }
  assert (E : Glossary.filter_from 0
                (fun (_ : Glossary.Ref) i => negb (Nat.eqb i (length arr)))
                (arr ++ [length objs])
              = arr).
  { rewrite (@filter_from_drops_one _ _ _ 0 (length arr))
      by reflexivity.
    rewrite skipn_all2 by (rewrite length_app; simpl; lia).
    rewrite firstn_app, firstn_all, Nat.sub_diag. simpl.
    now rewrite !app_nil_r. }
  unfold Glossary.rendered, Glossary.read, Glossary.removeGlossaryTerm,
    Glossary.addGlossaryTerm; simpl.
  split; [| split].
  - rewrite map_app, old. simpl. do 2 f_equal.
    rewrite nth_error_app2 by lia. now rewrite Nat.sub_diag.
  - exact E.
  - unfold Glossary.Ref in *. rewrite E. apply old.
Qed.

Lemma X11_witness :
  Glossary.well_formed Glossary.initial_state
  /\ Glossary.rendered
       (Glossary.removeGlossaryTerm 2
          (Glossary.addGlossaryTerm Glossary.initial_state))
     = Glossary.rendered Glossary.initial_state.
Proof.
  split; [apply well_formed_initial|].
  apply (@X11_add_then_remove_last Glossary.initial_state).
  apply well_formed_initial.
Defined.

(** ** The mock operations while the page is in use *)

(** X12. On the translation page, whatever the user clicks and selects
    and whenever timers fire, a timer is pending exactly while
    [isTranslating] is true, and then it is the only one, of 2000 ms,
    and clears the flag; the translate button is disabled exactly while
    that timer is pending, so the flag is never left set without a timer
    that will clear it. *)
Theorem X12_one_translate_timer_at_a_time :
  forall (events : list TranslationUI.Event),
    let ui := fold_left TranslationUI.handle events TranslationUI.mounted in
    TranslationUI.pending ui
      = (if Pages_TranslationModule.isTranslating (TranslationUI.state ui)
         then [ {| Pages_TranslationModule.delay := 2000;
                   Pages_TranslationModule.value := false |} ]
         else [])
    /\ Pages_TranslationModule.translate_disabled
         (Pages_TranslationModule.render (TranslationUI.state ui))
       = negb (Nat.eqb (length (TranslationUI.pending ui)) 0).
Proof.
  intros events ui.
  assert (I : TranslationUI.pending ui
              = (if Pages_TranslationModule.isTranslating
                      (TranslationUI.state ui)
                 then [ {| Pages_TranslationModule.delay := 2000;
                           Pages_TranslationModule.value := false |} ]
                 else [])).
  { subst ui.
    assert (G : forall u,
               TranslationUI.pending u
               = (if Pages_TranslationModule.isTranslating
                       (TranslationUI.state u)
                  then [ {| Pages_TranslationModule.delay := 2000;
                            Pages_TranslationModule.value := false |} ]
                  else []) ->
               TranslationUI.pending (fold_left TranslationUI.handle events u)
               = (if Pages_TranslationModule.isTranslating
                       (TranslationUI.state
                          (fold_left TranslationUI.handle events u))
                  then [ {| Pages_TranslationModule.delay := 2000;
                            Pages_TranslationModule.value := false |} ]
                  else [])).
    { induction events as [|e events IH]; intros u Hu; [exact Hu|].
      simpl. apply IH. destruct u as [st pend]; simpl in Hu.
      destruct e; simpl; try exact Hu.
      - destruct (Pages_TranslationModule.isTranslating st) eqn:E;
          simpl; [now rewrite E | now rewrite Hu].
      - destruct (Pages_TranslationModule.isTranslating st) eqn:E;
          subst pend; simpl; [reflexivity | now rewrite E]. }
    apply G. reflexivity. }
  split; [exact I|].
  rewrite I. simpl.
  now destruct (Pages_TranslationModule.isTranslating (TranslationUI.state ui)).
Qed.

(** X13. On the voice page likewise: a timer is pending exactly while
    [isProcessing] is true, it is then the only one, of 3000 ms, and
    clears the flag, and the generate button is disabled exactly while it
    is pending; playing, the subtitle switches and the language selectors
    do not interfere. *)
Theorem X13_one_generate_timer_at_a_time :
  forall (events : list Pages_VoiceModule.Event),
    let ui := fold_left Pages_VoiceModule.handle events
                        Pages_VoiceModule.mounted in
    Pages_VoiceModule.pending ui
      = (if Pages_VoiceModule.isProcessing (Pages_VoiceModule.state ui)
         then [ {| Pages_VoiceModule.delay := 3000;
                   Pages_VoiceModule.value := false |} ]
         else [])
    /\ Pages_VoiceModule.generate_disabled (Pages_VoiceModule.state ui)
       = negb (Nat.eqb (length (Pages_VoiceModule.pending ui)) 0)
    /\ Pages_VoiceModule.generate_label (Pages_VoiceModule.state ui)
       = (if Nat.eqb (length (Pages_VoiceModule.pending ui)) 0
          then "Generate Audio" else "Generating...").
Proof.
  intros events ui.
  assert (I : Pages_VoiceModule.pending ui
              = (if Pages_VoiceModule.isProcessing (Pages_VoiceModule.state ui)
                 then [ {| Pages_VoiceModule.delay := 3000;
                           Pages_VoiceModule.value := false |} ]
                 else [])).
  { subst ui. generalize (eq_refl : Pages_VoiceModule.pending
                                      Pages_VoiceModule.mounted = []).
    change (@nil Pages_VoiceModule.Pending)
      with (if Pages_VoiceModule.isProcessing
                 (Pages_VoiceModule.state Pages_VoiceModule.mounted)
            then [ {| Pages_VoiceModule.delay := 3000;
                      Pages_VoiceModule.value := false |} ]
            else []) at 1.
    generalize Pages_VoiceModule.mounted.
    induction events as [|e events IH]; intros u Hu; [exact Hu|].
    simpl. apply IH. destruct u as [st pend]; simpl in Hu.
    destruct e; simpl; try exact Hu.
    - unfold Pages_VoiceModule.generate_disabled.
      destruct (Pages_VoiceModule.isProcessing st) eqn:E;
        simpl; [now rewrite E | now rewrite Hu].
    - destruct (Pages_VoiceModule.isProcessing st) eqn:E;
        subst pend; simpl; [reflexivity | now rewrite E]. }
  unfold Pages_VoiceModule.generate_disabled, Pages_VoiceModule.generate_label.
  split; [exact I|]. rewrite I.
  now destruct (Pages_VoiceModule.isProcessing (Pages_VoiceModule.state ui)).
Qed.

(** ** Navigation *)

(** X14. The redirect of the variant with authentication settles in one
    tick: the render that follows the tick starts no timer, so a second
    tick changes nothing.  A tick changes the screen only from [landing]
    to [learner]; the screen is still [landing] after it exactly when it
    was [landing] and either no user is signed in or the path is the
    callback route, so a signed-in user who navigates back to the landing
    page is sent to the learner page again. *)
Theorem X14_redirect_settles_in_one_tick :
  forall (pathname : string) (st : AuthState) (p : Page),
    let p' := Navigation.tick pathname st p in
    (exists r, App_auth.App pathname st p' = Normal r /\ scheduled r = [])
    /\ Navigation.tick pathname st p' = p'
    /\ (p' = p \/ (p = landing /\ p' = learner))
    /\ (p' = landing
        <-> p = landing
            /\ (user st = None \/ pathname = "/auth/callback")).
Proof.
  intros pathname st p p'; subst p'.
  unfold Navigation.tick, App_auth.App, App_auth.AppContent. simpl.
  destruct (String.eqb_spec pathname "/auth/callback") as [Hp | Hp]; simpl.
  - split; [eexists; split; reflexivity|]. split; [reflexivity|].
    split; [now left|]. split; [intro H; split; [exact H | now right] | tauto].
  - destruct (user st) as [u|]; simpl.
    + destruct p; simpl;
        (split; [eexists; split; reflexivity|]); (split; [reflexivity|]);
        (split; [first [now left | right; now split]|]);
        (split; [intro H; discriminate H
                | intros [H1 [H2 | H2]];
                  first [discriminate H1 | discriminate H2 | now elim Hp]]).
    + split; [eexists; split; reflexivity|]. split; [reflexivity|].
      split; [now left|]. split; [intro H; split; [exact H | now left] | tauto].
Qed.
